(** * terraform-pfsense-provider: provider configuration

    A shallow embedding of [pfsense/provider.go] (the endpoint validator
    [isValidHTTPURL], the provider schema [Provider] and the configuration
    callback [providerConfigure]) with the statements of its specification.

    The Go file leans on three packages that are not part of the repository:
    [strings] and [net/url] of the Go standard library, and the accessors
    [Get]/[GetOk] of the Terraform plugin SDK's [schema.ResourceData].  They
    are modelled below, each in a module named after the package, as far as
    [provider.go] calls into them. *)

From Stdlib Require Import ZArith String Ascii List Bool Lia.
From stdpp Require Import base option gmap strings.

Local Open Scope string_scope.
Local Open Scope Z_scope.

(** ** Go control flow

    A Go call either returns normally, returns early with a non-nil [error]
    (the [return nil, err] of [providerConfigure]), or panics (a failed type
    assertion, a nil pointer dereference). *)

Inductive panic : Type :=
  | NilDereference
  | InterfaceConversion.

Inductive go (E A : Type) : Type :=
  | Ret (a : A)
  | Err (e : E)
  | Panic (p : panic).

Arguments Ret {E A} a.
Arguments Err {E A} e.
Arguments Panic {E A} p.

Definition go_bind {E A B} (m : go E A) (k : A -> go E B) : go E B :=
  match m with
  | Ret a => k a
  | Err e => Err e
  | Panic p => Panic p
  end.

#[global] Instance go_mbind {E} : MBind (go E) := fun A B k m => go_bind m k.
#[global] Instance go_mret {E} : MRet (go E) := fun A a => Ret a.

(** Values of type [interface{}], with the dynamic types the provider
    handles, and Go's [error] values by the call that builds them: the
    arguments of [fmt.Errorf] are kept beside the format string. *)

Inductive any : Type :=
  | Nil
  | VBool (b : bool)
  | VInt (n : Z)
  | VString (s : string).

#[global] Instance any_eq_dec : EqDecision any.
Proof. solve_decision. Defined.

Inductive error : Type :=
  | errors_New (text : string)
  | fmt_Errorf (format : string) (a : list any).

(** Type assertions [v.(bool)], [v.(int)], [v.(string)] panic on any other
    dynamic type; field access through a pointer panics on [nil]. *)

Definition as_bool (v : any) : go error bool :=
  match v with VBool b => Ret b | _ => Panic InterfaceConversion end.

Definition as_int (v : any) : go error Z :=
  match v with VInt n => Ret n | _ => Panic InterfaceConversion end.

Definition as_string (v : any) : go error string :=
  match v with VString s => Ret s | _ => Panic InterfaceConversion end.

Definition deref {A} (ptr : option A) : go error A :=
  match ptr with Some a => Ret a | None => Panic NilDereference end.

(** Go's [int] and [int64] on the 64-bit platforms the provider is built
    for: two's complement, arithmetic wraps around. *)

Definition min_int : Z := - 2 ^ 63.
Definition max_int : Z := 2 ^ 63 - 1.

Definition wrap64 (z : Z) : Z := (z + 2 ^ 63) mod 2 ^ 64 - 2 ^ 63.

(** ** Package [strings]

    Go strings are byte sequences; a Rocq [string] is a sequence of [ascii],
    one per byte. *)

Module Strings.

Fixpoint HasPrefix (s prefix : string) : bool :=
  match prefix, s with
  | EmptyString, _ => true
  | String p prefix', String c s' => Ascii.eqb c p && HasPrefix s' prefix'
  | String _ _, EmptyString => false
  end.

Fixpoint drop (n : nat) (s : string) : string :=
  match n, s with
  | O, _ => s
  | S n', String _ s' => drop n' s'
  | S _, EmptyString => EmptyString
  end.

Fixpoint take (n : nat) (s : string) : string :=
  match n, s with
  | O, _ => EmptyString
  | S n', String c s' => String c (take n' s')
  | S _, EmptyString => EmptyString
  end.

Definition HasSuffix (s suffix : string) : bool :=
  Nat.leb (String.length suffix) (String.length s)
  && String.eqb (drop (String.length s - String.length suffix) s) suffix.

(** [Index s sep]: the byte offset of the first occurrence of [sep] in
    [s]; Go's [-1] is [None]. *)
Fixpoint Index (s sep : string) : option nat :=
  if HasPrefix s sep then Some O
  else match s with
       | EmptyString => None
       | String _ s' => option_map S (Index s' sep)
       end.

(** [LastIndex s sep]: the offset of the last occurrence. *)
Fixpoint LastIndex (s sep : string) : option nat :=
  match s with
  | EmptyString => if HasPrefix s sep then Some O else None
  | String _ s' =>
      match LastIndex s' sep with
      | Some i => Some (S i)
      | None => if HasPrefix s sep then Some O else None
      end
  end.

Definition Contains (s substr : string) : bool :=
  match Index s substr with Some _ => true | None => false end.

(** [Count s c]: the number of occurrences of the one-byte string [c]. *)
Fixpoint Count (s : string) (c : ascii) : nat :=
  match s with
  | EmptyString => O
  | String c' s' => ((if Ascii.eqb c' c then 1 else 0) + Count s' c)%nat
  end.

(** [Cut s sep = (before, after, found)]. *)
Definition Cut (s sep : string) : string * string * bool :=
  match Index s sep with
  | Some i => (take i s, drop (i + String.length sep) s, true)
  | None => (s, EmptyString, false)
  end.

Definition between (lo hi c : ascii) : bool :=
  N.leb (N_of_ascii lo) (N_of_ascii c) && N.leb (N_of_ascii c) (N_of_ascii hi).

Definition lower (c : ascii) : ascii :=
  if between "A" "Z" c then ascii_of_N (N_of_ascii c + 32) else c.

(** [ToLower] on ASCII letters, which is all a URL scheme can hold. *)
Fixpoint ToLower (s : string) : string :=
  match s with
  | EmptyString => EmptyString
  | String c s' => String (lower c) (ToLower s')
  end.

End Strings.

(** ** Package [net/url]

    [url.Parse] and the functions it calls, after the Go standard library
    (go1.20 to go1.24).  [Parse] returns a [*URL] and an [error]; on every
    error path the pointer it returns is [nil].  The encoding hints
    [RawPath] and [RawFragment], which [provider.go] never reads, are left
    out of the record. *)

Module Url.

Record Userinfo : Type := {
  username : string;
  password : string;
  passwordSet : bool
}.

Record URL : Type := {
  Scheme : string;
  Opaque : string;
  User : option Userinfo;
  Host : string;
  Path : string;
  OmitHost : bool;
  ForceQuery : bool;
  RawQuery : string;
  Fragment : string
}.

Definition new_URL : URL :=
  {| Scheme := ""; Opaque := ""; User := None; Host := ""; Path := "";
     OmitHost := false; ForceQuery := false; RawQuery := ""; Fragment := "" |}.

(** The errors of the package, by the place that raises them. *)
Inductive Error : Type :=
  | InvalidControlCharacter
  | MissingProtocolScheme
  | FirstPathSegmentColon
  | MissingBracket
  | InvalidPort (colonPort : string)
  | InvalidUserinfo
  | EscapeError (s : string)
  | InvalidHostError (s : string).

Inductive encoding : Type :=
  | encodePath
  | encodePathSegment
  | encodeHost
  | encodeZone
  | encodeUserPassword
  | encodeQueryComponent
  | encodeFragment.

Definition is_host_mode (mode : encoding) : bool :=
  match mode with encodeHost | encodeZone => true | _ => false end.

Import Strings.

Definition isalpha (c : ascii) : bool := between "a" "z" c || between "A" "Z" c.
Definition isdigit (c : ascii) : bool := between "0" "9" c.

Definition ishex (c : ascii) : bool :=
  isdigit c || between "a" "f" c || between "A" "F" c.

Definition unhex (c : ascii) : N :=
  if isdigit c then N_of_ascii c - N_of_ascii "0"
  else if between "a" "f" c then N_of_ascii c - N_of_ascii "a" + 10
  else if between "A" "F" c then N_of_ascii c - N_of_ascii "A" + 10
  else 0.

Definition one_of (set : string) (c : ascii) : bool :=
  Nat.ltb 0 (Count set c).

(** [shouldEscape c mode], needed for the host and zone modes only: the
    other modes of [unescape] never ask. *)
Definition shouldEscape_host (c : ascii) : bool :=
  if isalpha c || isdigit c then false
  else if one_of "!$&'()*+,;=:[]<>" c || Ascii.eqb c (ascii_of_N 34) then false
  else if one_of "-_.~" c then false
  else true.

Fixpoint stringContainsCTLByte (s : string) : bool :=
  match s with
  | EmptyString => false
  | String b s' =>
      N.ltb (N_of_ascii b) 32 || N.eqb (N_of_ascii b) 127
      || stringContainsCTLByte s'
  end.

(** [getScheme]: the loop over [rawURL], [i] being the current offset and
    [rest] what lies from offset [i] on. *)
Fixpoint getScheme_loop (rawURL : string) (i : nat) (rest : string)
  : Error + (string * string) :=
  match rest with
  | EmptyString => inr ("", rawURL)
  | String c rest' =>
      if isalpha c then getScheme_loop rawURL (S i) rest'
      else if isdigit c || one_of "+-." c then
        if Nat.eqb i 0 then inr ("", rawURL)
        else getScheme_loop rawURL (S i) rest'
      else if Ascii.eqb c ":" then
        if Nat.eqb i 0 then inl MissingProtocolScheme
        else inr (take i rawURL, rest')
      else inr ("", rawURL)
  end.

Definition getScheme (rawURL : string) : Error + (string * string) :=
  getScheme_loop rawURL 0 rawURL.

(** [unescape]: Go checks the escapes in one pass and builds the result
    in a second; an error of the first pass discards everything, so one
    pass that does both returns the same. *)
Fixpoint unescape (s : string) (mode : encoding) : Error + string :=
  match s with
  | EmptyString => inr EmptyString
  | String "%" rest =>
      match rest with
      | String h1 (String h2 rest') =>
          if negb (ishex h1 && ishex h2) then inl (EscapeError (take 3 s))
          else if match mode with encodeHost => true | _ => false end
                  && N.ltb (unhex h1) 8
                  && negb (String.eqb (take 3 s) "%25")
          then inl (EscapeError (take 3 s))
          else
            let v := ascii_of_N (unhex h1 * 16 + unhex h2) in
            if match mode with encodeZone => true | _ => false end
               && negb (String.eqb (take 3 s) "%25")
               && negb (Ascii.eqb v " ")
               && shouldEscape_host v
            then inl (EscapeError (take 3 s))
            else match unescape rest' mode with
                 | inl e => inl e
                 | inr t => inr (String v t)
                 end
      | _ => inl (EscapeError (take 3 s))
      end
  | String "+" rest =>
      match unescape rest mode with
      | inl e => inl e
      | inr t =>
          inr (String (match mode with
                       | encodeQueryComponent => " "%char
                       | _ => "+"%char
                       end) t)
      end
  | String c rest =>
      if is_host_mode mode && N.ltb (N_of_ascii c) 128 && shouldEscape_host c
      then inl (InvalidHostError (String c EmptyString))
      else match unescape rest mode with
           | inl e => inl e
           | inr t => inr (String c t)
           end
  end.

Fixpoint all_digits (s : string) : bool :=
  match s with
  | EmptyString => true
  | String b s' => isdigit b && all_digits s'
  end.

Definition validOptionalPort (port : string) : bool :=
  match port with
  | EmptyString => true
  | String c digits => Ascii.eqb c ":" && all_digits digits
  end.

Fixpoint validUserinfo (s : string) : bool :=
  match s with
  | EmptyString => true
  | String r s' =>
      (isalpha r || isdigit r || one_of "-._:~!$&'()*+,;=%@" r)
      && validUserinfo s'
  end.

Definition parseHost (host : string) : Error + string :=
  let bracketed :=
    if HasPrefix host "[" then
      match LastIndex host "]" with
      | None => inl MissingBracket
      | Some i =>
          let colonPort := drop (i + 1) host in
          if negb (validOptionalPort colonPort) then inl (InvalidPort colonPort)
          else
            match Index (take i host) "%25" with
            | Some zone =>
                match unescape (take zone host) encodeHost with
                | inl e => inl e
                | inr host1 =>
                    match unescape (take (i - zone) (drop zone host)) encodeZone with
                    | inl e => inl e
                    | inr host2 =>
                        match unescape (drop i host) encodeHost with
                        | inl e => inl e
                        | inr host3 => inr (Some (host1 ++ host2 ++ host3))
                        end
                    end
                end
            | None => inr None
            end
      end
    else
      match LastIndex host ":" with
      | Some i =>
          let colonPort := drop i host in
          if negb (validOptionalPort colonPort) then inl (InvalidPort colonPort)
          else inr None
      | None => inr None
      end
  in
  match bracketed with
  | inl e => inl e
  | inr (Some h) => inr h
  | inr None => unescape host encodeHost
  end.

Definition parseAuthority (authority : string)
  : Error + (option Userinfo * string) :=
  let i := LastIndex authority "@" in
  match parseHost (match i with
                   | None => authority
                   | Some i => drop (i + 1) authority
                   end) with
  | inl e => inl e
  | inr host =>
      match i with
      | None => inr (None, host)
      | Some i =>
          let userinfo := take i authority in
          if negb (validUserinfo userinfo) then inl InvalidUserinfo
          else if negb (Contains userinfo ":") then
            match unescape userinfo encodeUserPassword with
            | inl e => inl e
            | inr u =>
                inr (Some {| username := u; password := ""; passwordSet := false |},
                     host)
            end
          else
            let '(username, password, _) := Cut userinfo ":" in
            match unescape username encodeUserPassword with
            | inl e => inl e
            | inr u =>
                match unescape password encodeUserPassword with
                | inl e => inl e
                | inr pw =>
                    inr (Some {| username := u; password := pw; passwordSet := true |},
                         host)
                end
            end
      end
  end.

Definition with_Path (u : URL) (p : string) : URL :=
  {| Scheme := Scheme u; Opaque := Opaque u; User := User u; Host := Host u;
     Path := p; OmitHost := OmitHost u; ForceQuery := ForceQuery u;
     RawQuery := RawQuery u; Fragment := Fragment u |}.

Definition with_Fragment (u : URL) (f : string) : URL :=
  {| Scheme := Scheme u; Opaque := Opaque u; User := User u; Host := Host u;
     Path := Path u; OmitHost := OmitHost u; ForceQuery := ForceQuery u;
     RawQuery := RawQuery u; Fragment := f |}.

Definition setPath (u : URL) (p : string) : Error + URL :=
  match unescape p encodePath with
  | inl e => inl e
  | inr path => inr (with_Path u path)
  end.

Definition setFragment (u : URL) (f : string) : Error + URL :=
  match unescape f encodeFragment with
  | inl e => inl e
  | inr frag => inr (with_Fragment u frag)
  end.

(** [parse rawURL viaRequest]; [Parse] calls it with [viaRequest = false],
    so the two errors that only a request URI can raise do not occur. *)
Definition parse (rawURL : string) : Error + URL :=
  if stringContainsCTLByte rawURL then inl InvalidControlCharacter
  else if String.eqb rawURL "*" then inr (with_Path new_URL "*")
  else
    match getScheme rawURL with
    | inl e => inl e
    | inr (scheme, rest) =>
        let scheme := ToLower scheme in
        let '(rest, rawQuery, forceQuery) :=
          if HasSuffix rest "?" && Nat.eqb (Count rest "?") 1
          then (take (String.length rest - 1) rest, "", true)
          else let '(before, after, _) := Cut rest "?" in (before, after, false) in
        if negb (HasPrefix rest "/") && negb (String.eqb scheme "") then
          inr {| Scheme := scheme; Opaque := rest; User := None; Host := "";
                 Path := ""; OmitHost := false; ForceQuery := forceQuery;
                 RawQuery := rawQuery; Fragment := "" |}
        else if negb (HasPrefix rest "/")
                && Contains (fst (fst (Cut rest "/"))) ":"
        then inl FirstPathSegmentColon
        else
          let authority_rest :=
            if (negb (String.eqb scheme "") || negb (HasPrefix rest "///"))
               && HasPrefix rest "//"
            then
              let authority := drop 2 rest in
              let '(authority, rest) :=
                match Index authority "/" with
                | Some i => (take i authority, drop i authority)
                | None => (authority, "")
                end in
              match parseAuthority authority with
              | inl e => inl e
              | inr (user, host) => inr (user, host, false, rest)
              end
            else if negb (String.eqb scheme "") && HasPrefix rest "/"
            then inr (None, "", true, rest)
            else inr (None, "", false, rest) in
          match authority_rest with
          | inl e => inl e
          | inr (user, host, omitHost, rest) =>
              setPath {| Scheme := scheme; Opaque := ""; User := user;
                         Host := host; Path := ""; OmitHost := omitHost;
                         ForceQuery := forceQuery; RawQuery := rawQuery;
                         Fragment := "" |} rest
          end
    end.

(** [Parse rawURL]: the fragment is cut off first and set last.  The result
    is Go's pair of a URL pointer and an error; on both error paths the
    pointer is [nil], here [None]. *)
Definition Parse (rawURL : string) : option URL * option Error :=
  let '(u, frag, _) := Cut rawURL "#" in
  match parse u with
  | inl err => (None, Some err)
  | inr url =>
      if String.eqb frag "" then (Some url, None)
      else match setFragment url frag with
           | inl err => (None, Some err)
           | inr url => (Some url, None)
           end
  end.

End Url.

(** ** Package [time]: a [Duration] is an [int64] count of nanoseconds. *)

Module Time.

Definition Duration : Type := Z.

Definition Nanosecond : Duration := 1.
Definition Microsecond : Duration := 1000 * Nanosecond.
Definition Millisecond : Duration := 1000 * Microsecond.
Definition Second : Duration := 1000 * Millisecond.

(** The conversion [time.Duration(n)] of an [int]. *)
Definition of_int (n : Z) : Duration := wrap64 n.

Definition mul (a b : Duration) : Duration := wrap64 (a * b).

End Time.

(** ** Terraform plugin SDK, package [helper/schema]

    A [ResourceData] holds the schema it was built for and the values the
    practitioner wrote in the configuration block.  [Get] returns the
    configured value, else the schema's default, else the zero value of the
    schema's type.  [GetOk] returns the same value and whether it was set to
    a value other than that zero value: a boolean set to [false], or a string
    set to the empty string, reads as not set. *)

Module Schema.

Inductive ValueType : Type := TypeBool | TypeInt | TypeString.

Definition Zero (t : ValueType) : any :=
  match t with
  | TypeBool => VBool false
  | TypeInt => VInt 0
  | TypeString => VString ""
  end.

Definition SchemaValidateFunc : Type :=
  any -> string -> go error (list string * list error).

Record Schema : Type := {
  Type_ : ValueType;
  Optional : bool;
  Required : bool;
  Default : option any;
  Description : string;
  Sensitive : bool;
  ValidateFunc : option SchemaValidateFunc
}.

Record ResourceData : Type := {
  schema : gmap string Schema;
  config : gmap string any
}.

Definition Get (d : ResourceData) (key : string) : any :=
  match schema d !! key with
  | None => Nil
  | Some sch =>
      match config d !! key with
      | Some v => v
      | None =>
          match Default sch with
          | Some v => v
          | None => Zero (Type_ sch)
          end
      end
  end.

Definition GetOk (d : ResourceData) (key : string) : any * bool :=
  match schema d !! key with
  | None => (Nil, false)
  | Some sch =>
      let value := Get d key in
      let exists_ :=
        match config d !! key, Default sch with
        | None, None => false
        | _, _ => true
        end in
      (value, exists_ && negb (bool_decide (value = Zero (Type_ sch))))
  end.

(** What the SDK guarantees of a [ResourceData] before it calls back: every
    configured key is in the schema and its value has the schema's type. *)
Definition has_type (t : ValueType) (v : any) : bool :=
  match t, v with
  | TypeBool, VBool _ => true
  | TypeInt, VInt n => (min_int <=? n) && (n <=? max_int)
  | TypeString, VString _ => true
  | _, _ => false
  end.

Definition conforms (d : ResourceData) : Prop :=
  map_Forall
    (fun key v =>
       from_option (fun sch => has_type (Type_ sch) v) false (schema d !! key)
       = true)
    (config d).

#[global] Instance conforms_dec d : Decision (conforms d).
Proof. unfold conforms. apply _. Defined.

End Schema.

(** ** Package [pfsenseapi]: the client library's [Config] and [NewClient].

    The library is not part of the repository; a client is modelled as a
    handle on the configuration it was built from. *)

Module Pfsenseapi.

Record Config : Type := {
  Host : string;
  LocalAuthEnabled : bool;
  User : string;
  Password : string;
  JWTAuthEnabled : bool;
  JWTToken : string;
  TokenAuthEnabled : bool;
  ApiClientID : string;
  ApiClientToken : string;
  SkipTLS : bool;
  Timeout : Time.Duration
}.

Record Client : Type := { Cfg : Config }.

Definition NewClient (config : Config) : Client := {| Cfg := config |}.

(** Field assignments [c.F = v]. *)
Definition set_JWT (c : Config) (enabled : bool) (token : string) : Config :=
  {| Host := Host c; LocalAuthEnabled := LocalAuthEnabled c; User := User c;
     Password := Password c; JWTAuthEnabled := enabled; JWTToken := token;
     TokenAuthEnabled := TokenAuthEnabled c; ApiClientID := ApiClientID c;
     ApiClientToken := ApiClientToken c; SkipTLS := SkipTLS c;
     Timeout := Timeout c |}.

Definition set_Local (c : Config) (enabled : bool) (user : string) : Config :=
  {| Host := Host c; LocalAuthEnabled := enabled; User := user;
     Password := Password c; JWTAuthEnabled := JWTAuthEnabled c;
     JWTToken := JWTToken c; TokenAuthEnabled := TokenAuthEnabled c;
     ApiClientID := ApiClientID c; ApiClientToken := ApiClientToken c;
     SkipTLS := SkipTLS c; Timeout := Timeout c |}.

Definition set_Password (c : Config) (password : string) : Config :=
  {| Host := Host c; LocalAuthEnabled := LocalAuthEnabled c; User := User c;
     Password := password; JWTAuthEnabled := JWTAuthEnabled c;
     JWTToken := JWTToken c; TokenAuthEnabled := TokenAuthEnabled c;
     ApiClientID := ApiClientID c; ApiClientToken := ApiClientToken c;
     SkipTLS := SkipTLS c; Timeout := Timeout c |}.

Definition set_Token (c : Config) (enabled : bool) (id : string) : Config :=
  {| Host := Host c; LocalAuthEnabled := LocalAuthEnabled c; User := User c;
     Password := Password c; JWTAuthEnabled := JWTAuthEnabled c;
     JWTToken := JWTToken c; TokenAuthEnabled := enabled;
     ApiClientID := id; ApiClientToken := ApiClientToken c;
     SkipTLS := SkipTLS c; Timeout := Timeout c |}.

Definition set_ApiClientToken (c : Config) (token : string) : Config :=
  {| Host := Host c; LocalAuthEnabled := LocalAuthEnabled c; User := User c;
     Password := Password c; JWTAuthEnabled := JWTAuthEnabled c;
     JWTToken := JWTToken c; TokenAuthEnabled := TokenAuthEnabled c;
     ApiClientID := ApiClientID c; ApiClientToken := token;
     SkipTLS := SkipTLS c; Timeout := Timeout c |}.

End Pfsenseapi.

(** ** [pfsense/provider.go] *)

Import Schema Pfsenseapi.

(** [isValidHTTPURL val key]: the [ValidateFunc] of the [url] attribute.
    [warns] is never appended to.  The first condition short-circuits on
    [err != nil]; the second reads [url.Path] whatever [err] was. *)
Definition isValidHTTPURL (val : any) (key : string)
  : go error (list string * list error) :=
  let warns : list string := [] in
  let errs : list error := [] in
  value ← as_string val;
  let '(url, err) := Url.Parse value in
  cond ← (if bool_decide (err ≠ None) then Ret true
          else u ← deref url;
               Ret (negb (String.eqb (Url.Scheme u) "http")
                    && negb (String.eqb (Url.Scheme u) "https")));
  let errs :=
    if cond : bool
    then (errs ++ [fmt_Errorf "%q must be a valid HTTP/HTTPS URL, got: %q"
                     [VString key; VString value]])%list
    else errs in
  u ← deref url;
  let errs :=
    if negb (String.eqb (Url.Path u) "")
       || negb (String.eqb (Url.RawQuery u) "")
       || negb (String.eqb (Url.Fragment u) "")
    then (errs ++ [fmt_Errorf
                     "%q should not contain any path, query or fragment, got: %q"
                     [VString key; VString value]])%list
    else errs in
  Ret (warns, errs).

(** The [Schema] map of [Provider].  [ResourcesMap] holds the resources of
    other files and is not needed here. *)
Definition optional (t : ValueType) (description : string) (sensitive : bool)
  : Schema :=
  {| Type_ := t; Optional := true; Required := false; Default := None;
     Description := description; Sensitive := sensitive; ValidateFunc := None |}.

Definition ProviderSchema : gmap string Schema :=
  list_to_map
    [ ("url",
       {| Type_ := TypeString; Optional := false; Required := true;
          Default := None;
          Description := "The url of the target pfsense e.g https://192.168.1.1";
          Sensitive := false; ValidateFunc := Some isValidHTTPURL |});
      ("user", optional TypeString "Local authentication username." false);
      ("password", optional TypeString "Local authentication password." true);
      ("jwt_token", optional TypeString "JWT token for authentication." true);
      ("api_client_id",
       optional TypeString "API Client ID for token-based authentication." false);
      ("api_client_token",
       optional TypeString "API Client Token for token-based authentication." true);
      ("skip_tls",
       optional TypeBool
         "Skip TLS verification. If not specified, it defaults to true unless the url uses HTTPS."
         false);
      ("timeout",
       {| Type_ := TypeInt; Optional := true; Required := false;
          Default := Some (VInt 5);
          Description := "Request timeout duration in seconds.";
          Sensitive := false; ValidateFunc := None |}) ].

Definition providerConfigure (d : ResourceData) : go error Client :=
  url ← as_string (Get d "url");
  let '(skipTLSValue, skipTLSExists) := GetOk d "skip_tls" in
  '(skipTLSValue, skipTLSExists) ←
    (if Strings.HasPrefix url "https://" then
       if negb skipTLSExists
       then Ret (VBool false, skipTLSExists)
       else Ret (skipTLSValue, skipTLSExists)
     else if negb skipTLSExists then
       Ret (skipTLSValue, true)
     else
       skip ← as_bool skipTLSValue;
       if negb skip
       then Err (fmt_Errorf "Cannot enforce TLS for url %s" [VString url])
       else Ret (skipTLSValue, skipTLSExists));
  skipTLS ← as_bool skipTLSValue;
  timeout ← as_int (Get d "timeout");
  let c :=
    {| Host := url; SkipTLS := skipTLS;
       Timeout := Time.mul (Time.of_int timeout) Time.Second;
       LocalAuthEnabled := false; User := ""; Password := "";
       JWTAuthEnabled := false; JWTToken := "";
       TokenAuthEnabled := false; ApiClientID := ""; ApiClientToken := "" |} in
  (* Check for JWT auth *)
  c ← (let '(jwtToken, ok) := GetOk d "jwt_token" in
       if ok then
         token ← as_string jwtToken;
         Ret (set_JWT c true token)
       else Ret c);
  (* Check for local auth *)
  c ← (let '(user, ok) := GetOk d "user" in
       if ok then
         user ← as_string user;
         let c := set_Local c true user in
         let '(password, ok) := GetOk d "password" in
         if negb ok
         then Err (errors_New "password is required when username is provided")
         else password ← as_string password;
              Ret (set_Password c password)
       else Ret c);
  (* Check for token auth *)
  c ← (let '(clientID, ok) := GetOk d "api_client_id" in
       if ok then
         clientID ← as_string clientID;
         let c := set_Token c true clientID in
         let '(clientToken, ok) := GetOk d "api_client_token" in
         if negb ok
         then Err (errors_New
                     "api_client_token is required when api_client_id is provided")
         else clientToken ← as_string clientToken;
              Ret (set_ApiClientToken c clientToken)
       else Ret c);
  (* Validate only one form of auth is present *)
  let authCount := 0 in
  let authCount := if JWTAuthEnabled c then authCount + 1 else authCount in
  let authCount := if LocalAuthEnabled c then authCount + 1 else authCount in
  let authCount := if TokenAuthEnabled c then authCount + 1 else authCount in
  if 1 <? authCount
  then Err (errors_New "only one form of authentication should be provided")
  else Ret (NewClient c).

Record Provider_ : Type := {
  Schema_ : gmap string Schema;
  ConfigureFunc : ResourceData -> go error Client
}.

Definition Provider : Provider_ :=
  {| Schema_ := ProviderSchema; ConfigureFunc := providerConfigure |}.

(** ** Vocabulary of the specification *)

(** The error kinds of the specification, and the kind of each error that
    [provider.go] builds. *)
Inductive ErrorKind : Type :=
  | InvalidEndpoint
  | MissingCredential
  | AmbiguousAuth
  | TLSPolicyConflict.

Definition kind_of (e : error) : option ErrorKind :=
  match e with
  | fmt_Errorf format _ =>
      if String.eqb format "Cannot enforce TLS for url %s"
      then Some TLSPolicyConflict
      else if String.eqb format "%q must be a valid HTTP/HTTPS URL, got: %q"
              || String.eqb format
                   "%q should not contain any path, query or fragment, got: %q"
      then Some InvalidEndpoint
      else None
  | errors_New text =>
      if String.eqb text "password is required when username is provided"
         || String.eqb text
              "api_client_token is required when api_client_id is provided"
      then Some MissingCredential
      else if String.eqb text "only one form of authentication should be provided"
      then Some AmbiguousAuth
      else None
  end.

(** The configurations [providerConfigure] is called on: built for the
    provider's schema, and well typed. *)
Definition provider_data (d : ResourceData) : Prop :=
  schema d = Schema_ Provider /\ conforms d.

(** A setting is unset when the configuration block does not mention it, and
    supplied with [s] when it is set to the non-empty string [s]. *)
Definition unset (d : ResourceData) (key : string) : Prop :=
  config d !! key = None.

Definition supplied (d : ResourceData) (key s : string) : Prop :=
  config d !! key = Some (VString s) /\ s <> "".

(** The string a setting holds (empty when unset), and whether it holds a
    non-empty one. *)
Definition str (d : ResourceData) (key : string) : string :=
  match config d !! key with
  | Some (VString s) => s
  | _ => ""
  end.

Definition present (d : ResourceData) (key : string) : bool :=
  negb (String.eqb (str d key) "").

(** The [skip_tls] flag and the [timeout] a configuration holds, read the
    way the schema has them: [false] when unset, and the default of 5. *)
Definition skip_flag (d : ResourceData) : bool :=
  match config d !! "skip_tls" with
  | Some (VBool b) => b
  | _ => false
  end.

Definition timeout_setting (d : ResourceData) : Z :=
  match config d !! "timeout" with
  | Some (VInt n) => n
  | _ => 5
  end.

(** The client configuration [providerConfigure] assembles when it raises
    no error, written as one record. *)
Definition resolved (d : ResourceData) : Config :=
  {| Host := str d "url";
     SkipTLS := skip_flag d;
     Timeout := Time.mul (Time.of_int (timeout_setting d)) Time.Second;
     JWTAuthEnabled := present d "jwt_token";
     JWTToken := if present d "jwt_token" then str d "jwt_token" else "";
     LocalAuthEnabled := present d "user";
     User := if present d "user" then str d "user" else "";
     Password := if present d "user" then str d "password" else "";
     TokenAuthEnabled := present d "api_client_id";
     ApiClientID :=
       if present d "api_client_id" then str d "api_client_id" else "";
     ApiClientToken :=
       if present d "api_client_id" then str d "api_client_token" else "" |}.

(** The authentication groups that are complete, and how many there are. *)
Definition jwt_complete (d : ResourceData) : bool := present d "jwt_token".

Definition local_complete (d : ResourceData) : bool :=
  present d "user" && present d "password".

Definition token_complete (d : ResourceData) : bool :=
  present d "api_client_id" && present d "api_client_token".

Definition complete_groups (d : ResourceData) : nat :=
  (Nat.b2n (jwt_complete d) + Nat.b2n (local_complete d)
   + Nat.b2n (token_complete d))%nat.

(** An endpoint is valid when the validator of the [url] attribute returns
    without an error; its scheme is the one [url.Parse] finds. *)
Definition valid_endpoint (endpoint : string) : Prop :=
  exists warns, isValidHTTPURL (VString endpoint) "url" = Ret (warns, []).

Definition endpoint_scheme (endpoint : string) : option string :=
  Url.Scheme <$> fst (Url.Parse endpoint).

(** A configuration block for the provider, from its settings. *)
Definition configuration (settings : list (string * any)) : ResourceData :=
  {| schema := Schema_ Provider; config := list_to_map settings |}.

(** ** Configurations the properties below are evaluated on *)

Definition http_without_override : ResourceData :=
  configuration [("url", VString "http://10.0.0.1")].

Definition http_with_override_false : ResourceData :=
  configuration [("url", VString "http://10.0.0.1"); ("skip_tls", VBool false)].

Definition https_without_auth : ResourceData :=
  configuration [("url", VString "https://192.168.1.1")].

Definition jwt_only : ResourceData :=
  configuration [("url", VString "https://192.168.1.1");
                 ("jwt_token", VString "y")].

Definition local_only : ResourceData :=
  configuration [("url", VString "https://192.168.1.1");
                 ("user", VString "admin"); ("password", VString "x")].

Definition token_only : ResourceData :=
  configuration [("url", VString "https://192.168.1.1");
                 ("api_client_id", VString "id");
                 ("api_client_token", VString "secret")].

Definition user_without_password : ResourceData :=
  configuration [("url", VString "https://192.168.1.1");
                 ("user", VString "admin"); ("jwt_token", VString "y")].

Definition local_and_jwt : ResourceData :=
  configuration [("url", VString "https://192.168.1.1");
                 ("user", VString "admin"); ("password", VString "x");
                 ("jwt_token", VString "y")].

Definition local_and_jwt_and_client_id : ResourceData :=
  configuration [("url", VString "https://192.168.1.1");
                 ("user", VString "admin"); ("password", VString "x");
                 ("jwt_token", VString "y"); ("api_client_id", VString "id")].

Definition timeout_of_30 : ResourceData :=
  configuration [("url", VString "https://192.168.1.1"); ("timeout", VInt 30)].

Definition timeout_of_ten_billion : ResourceData :=
  configuration [("url", VString "https://192.168.1.1");
                 ("timeout", VInt 10000000000)].

(** ** Editing a configuration block

    The same [ResourceData] with one setting written, or with one setting
    taken out of the block. *)

Definition set_setting (d : ResourceData) (key : string) (v : any)
  : ResourceData :=
  {| schema := schema d; config := <[key := v]> (config d) |}.

Definition remove_setting (d : ResourceData) (key : string) : ResourceData :=
  {| schema := schema d; config := delete key (config d) |}.

(** How many of the three authentication modes a client configuration
    enables. *)
Definition auth_modes (c : Config) : nat :=
  (Nat.b2n (JWTAuthEnabled c) + Nat.b2n (LocalAuthEnabled c)
   + Nat.b2n (TokenAuthEnabled c))%nat.

(** The three errors [providerConfigure] builds on the authentication
    settings. *)
Definition password_required : error :=
  errors_New "password is required when username is provided".

Definition api_client_token_required : error :=
  errors_New "api_client_token is required when api_client_id is provided".

Definition only_one_auth : error :=
  errors_New "only one form of authentication should be provided".

(** The two errors of [isValidHTTPURL]. *)
Definition not_http_url (key value : string) : error :=
  fmt_Errorf "%q must be a valid HTTP/HTTPS URL, got: %q"
    [VString key; VString value].

Definition has_path_query_fragment (key value : string) : error :=
  fmt_Errorf "%q should not contain any path, query or fragment, got: %q"
    [VString key; VString value].

Definition both_pairs_incomplete : ResourceData :=
  configuration [("url", VString "https://192.168.1.1");
                 ("user", VString "admin"); ("api_client_id", VString "id")].

Definition jwt_and_client_id_without_token : ResourceData :=
  configuration [("url", VString "https://192.168.1.1");
                 ("jwt_token", VString "y"); ("api_client_id", VString "id")].

Definition jwt_with_stray_password : ResourceData :=
  configuration [("url", VString "https://192.168.1.1");
                 ("jwt_token", VString "y"); ("password", VString "x")].

Definition jwt_with_empty_user : ResourceData :=
  configuration [("url", VString "https://192.168.1.1");
                 ("jwt_token", VString "y"); ("user", VString "")].

Definition skip_tls_on_https : ResourceData :=
  configuration [("url", VString "https://192.168.1.1");
                 ("skip_tls", VBool true)].

Definition endpoint_with_path : ResourceData :=
  configuration [("url", VString "ftp://192.168.1.1/api?x=1")].

(** * Properties *)

(** ** The accessors on a provider configuration *)

Lemma provider_data_configuration settings :
  conforms (configuration settings) -> provider_data (configuration settings).
Proof. intros H. split; [reflexivity | exact H]. Qed.

Lemma has_type_string v : has_type TypeString v = true -> exists s, v = VString s.
Proof. destruct v; simpl; try discriminate. eauto. Qed.

Lemma has_type_bool v : has_type TypeBool v = true -> exists b, v = VBool b.
Proof. destruct v; simpl; try discriminate. eauto. Qed.

Lemma has_type_int v :
  has_type TypeInt v = true -> exists n, v = VInt n /\ min_int <= n <= max_int.
Proof.
  destruct v; simpl; try discriminate.
  intros H. apply andb_true_iff in H as [H1 H2].
  exists n. split; [reflexivity | lia].
Qed.

Lemma conforms_lookup d key v sch :
  conforms d -> schema d !! key = Some sch -> config d !! key = Some v ->
  has_type (Type_ sch) v = true.
Proof.
  intros Hc Hs Hv. apply (map_Forall_lookup_1 _ _ _ _ Hc) in Hv.
  rewrite Hs in Hv. exact Hv.
Qed.

Lemma VString_eq_empty s :
  bool_decide (VString s = VString "") = String.eqb s "".
Proof.
  destruct (String.eqb_spec s "") as [-> | Hne].
  - apply bool_decide_eq_true_2. reflexivity.
  - apply bool_decide_eq_false_2. congruence.
Qed.

(** A string setting without a default: [Get] yields the string (empty when
    unset) and [GetOk] says whether it is non-empty. *)
Lemma GetOk_string d key sch :
  conforms d -> schema d !! key = Some sch ->
  Type_ sch = TypeString -> Default sch = None ->
  Get d key = VString (str d key)
  /\ GetOk d key = (VString (str d key), present d key).
Proof.
  intros Hc Hs Ht Hd.
  assert (HG : Get d key = VString (str d key)).
  { unfold Get, str. rewrite Hs.
    destruct (config d !! key) as [v |] eqn:Hv.
    - pose proof (conforms_lookup _ _ _ _ Hc Hs Hv) as Hty.
      rewrite Ht in Hty. apply has_type_string in Hty as [s ->]. reflexivity.
    - rewrite Hd, Ht. reflexivity. }
  split; [exact HG |].
  unfold GetOk. rewrite Hs, HG, Hd, Ht. simpl. rewrite VString_eq_empty.
  unfold present, str.
  destruct (config d !! key) as [v |]; [| reflexivity].
  destruct v; reflexivity.
Qed.

Lemma VBool_eq_false b : bool_decide (VBool b = VBool false) = negb b.
Proof.
  destruct b.
  - apply bool_decide_eq_false_2. congruence.
  - apply bool_decide_eq_true_2. reflexivity.
Qed.

(** [skip_tls]: [GetOk] yields the flag twice, as the value and as the
    "was set" result; a flag set to [false] reads as not set. *)
Lemma GetOk_skip_tls d :
  provider_data d -> GetOk d "skip_tls" = (VBool (skip_flag d), skip_flag d).
Proof.
  intros [Hs Hc]. unfold GetOk, Get, skip_flag.
  assert (Hk : schema d !! "skip_tls"
               = Some (optional TypeBool
                  "Skip TLS verification. If not specified, it defaults to true unless the url uses HTTPS."
                  false)) by (rewrite Hs; reflexivity).
  rewrite Hk. simpl.
  destruct (config d !! "skip_tls") as [v |] eqn:Hv; [| reflexivity].
  pose proof (conforms_lookup _ _ _ _ Hc Hk Hv) as Hty.
  apply has_type_bool in Hty as [b ->].
  rewrite VBool_eq_false. destruct b; reflexivity.
Qed.

Lemma Get_timeout d :
  provider_data d ->
  Get d "timeout" = VInt (timeout_setting d)
  /\ min_int <= timeout_setting d <= max_int.
Proof.
  intros [Hs Hc]. unfold Get, timeout_setting.
  assert (Hk : exists sch, schema d !! "timeout" = Some sch
               /\ Type_ sch = TypeInt /\ Default sch = Some (VInt 5)).
  { rewrite Hs. eexists. split; [reflexivity | split; reflexivity]. }
  destruct Hk as (sch & Hk & Ht & Hd). rewrite Hk.
  destruct (config d !! "timeout") as [v |] eqn:Hv.
  - pose proof (conforms_lookup _ _ _ _ Hc Hk Hv) as Hty.
    rewrite Ht in Hty. apply has_type_int in Hty as (n & -> & Hn).
    split; [reflexivity | exact Hn].
  - rewrite Hd. split; [reflexivity |]. unfold min_int, max_int. lia.
Qed.

Lemma GetOk_setting d key :
  provider_data d ->
  In key ["url"; "user"; "password"; "jwt_token"; "api_client_id";
          "api_client_token"] ->
  Get d key = VString (str d key)
  /\ GetOk d key = (VString (str d key), present d key).
Proof.
  intros [Hs Hc] Hin.
  assert (Hk : exists sch, schema d !! key = Some sch
               /\ Type_ sch = TypeString /\ Default sch = None).
  { rewrite Hs. simpl in Hin.
    destruct Hin as [<- | [<- | [<- | [<- | [<- | [<- | []]]]]]];
      (eexists; split; [reflexivity | split; reflexivity]). }
  destruct Hk as (sch & Hk & Ht & Hd).
  exact (GetOk_string d key sch Hc Hk Ht Hd).
Qed.

(** ** [providerConfigure] in one equation

    On a provider configuration no type assertion fails, the TLS branch
    raises nothing, and what is left are the three checks on the
    authentication settings, in the order of the source. *)
Lemma providerConfigure_eq d :
  provider_data d ->
  providerConfigure d =
    if present d "user" && negb (present d "password")
    then Err (errors_New "password is required when username is provided")
    else if present d "api_client_id" && negb (present d "api_client_token")
    then Err (errors_New
                "api_client_token is required when api_client_id is provided")
    else if 1 <? Z.b2z (present d "jwt_token") + Z.b2z (present d "user")
                 + Z.b2z (present d "api_client_id")
    then Err (errors_New "only one form of authentication should be provided")
    else Ret (NewClient (resolved d)).
Proof.
  intros Hd. unfold providerConfigure.
  destruct (GetOk_setting d "url" Hd) as [-> _]; [simpl; tauto |].
  destruct (GetOk_setting d "user" Hd) as [_ ->]; [simpl; tauto |].
  destruct (GetOk_setting d "password" Hd) as [_ ->]; [simpl; tauto |].
  destruct (GetOk_setting d "jwt_token" Hd) as [_ ->]; [simpl; tauto |].
  destruct (GetOk_setting d "api_client_id" Hd) as [_ ->]; [simpl; tauto |].
  destruct (GetOk_setting d "api_client_token" Hd) as [_ ->]; [simpl; tauto |].
  rewrite (GetOk_skip_tls d Hd).
  destruct (Get_timeout d Hd) as [-> _].
  unfold resolved.
  cbn [mbind go_mbind go_bind as_string as_bool as_int].
  destruct (Strings.HasPrefix (str d "url") "https://"),
    (skip_flag d), (present d "jwt_token"), (present d "user"),
    (present d "password"), (present d "api_client_id"),
    (present d "api_client_token"); reflexivity.
Qed.

Lemma supplied_present d key s :
  supplied d key s -> present d key = true /\ str d key = s.
Proof.
  intros [Hv Hne]. unfold present, str. rewrite Hv. split; [| reflexivity].
  destruct (String.eqb_spec s ""); [contradiction | reflexivity].
Qed.

Lemma unset_present d key :
  unset d key -> present d key = false /\ str d key = "".
Proof.
  intros Hv. unfold present, str. rewrite Hv. split; reflexivity.
Qed.

Lemma unset_skip_flag d : unset d "skip_tls" -> skip_flag d = false.
Proof. intros Hv. unfold skip_flag. rewrite Hv. reflexivity. Qed.

(** Whatever the settings, a provider configuration resolves to a client or
    to one of the three authentication errors: it neither panics nor raises
    the TLS error, whose branch needs [GetOk] to report a flag that is both
    set and [false]. *)
Lemma providerConfigure_outcomes d :
  provider_data d ->
  providerConfigure d = Ret (NewClient (resolved d))
  \/ exists e, providerConfigure d = Err e
       /\ (kind_of e = Some MissingCredential \/ kind_of e = Some AmbiguousAuth).
Proof.
  intros Hd. rewrite (providerConfigure_eq d Hd).
  destruct (present d "user" && negb (present d "password")).
  { right. eexists. split; [reflexivity | left; reflexivity]. }
  destruct (present d "api_client_id" && negb (present d "api_client_token")).
  { right. eexists. split; [reflexivity | left; reflexivity]. }
  destruct (1 <? _).
  { right. eexists. split; [reflexivity | right; reflexivity]. }
  left. reflexivity.
Qed.

Lemma tls_error_never_raised d e :
  provider_data d -> providerConfigure d = Err e ->
  kind_of e <> Some TLSPolicyConflict.
Proof.
  intros Hd He.
  destruct (providerConfigure_outcomes d Hd) as [H | (e' & H & Hk)];
    rewrite H in He; [discriminate He |].
  injection He as <-. destruct Hk as [-> | ->]; discriminate.
Qed.

Lemma providerConfigure_Ret d client :
  provider_data d -> providerConfigure d = Ret client ->
  client = NewClient (resolved d).
Proof.
  intros Hd Hr. destruct (providerConfigure_outcomes d Hd) as [H | (e & H & _)];
    rewrite H in Hr; congruence.
Qed.

(** With [skip_tls] unset the client verifies TLS, whatever the endpoint. *)
Lemma unset_skip_tls_verifies d client :
  provider_data d -> unset d "skip_tls" -> providerConfigure d = Ret client ->
  SkipTLS (Cfg client) = false.
Proof.
  intros Hd Hu Hr. rewrite (providerConfigure_Ret d client Hd Hr). simpl.
  apply unset_skip_flag, Hu.
Qed.

Ltac conforming :=
  apply provider_data_configuration, (bool_decide_unpack _);
  vm_compute; exact I.

(** ** TLS policy *)

(** C1, as the code has it: with the endpoint [http://10.0.0.1], a valid
    endpoint of scheme [http], and [skip_tls] unset, resolution succeeds and
    the [SkipTLS] flag handed to [NewClient] is [false], not [true]: the
    branch for this case assigns [skipTLSExists], not [skipTLSValue]. *)
Theorem http_endpoint_default_does_not_skip_tls :
  provider_data http_without_override
  /\ valid_endpoint (str http_without_override "url")
  /\ endpoint_scheme (str http_without_override "url") = Some "http"
  /\ unset http_without_override "skip_tls"
  /\ exists client, providerConfigure http_without_override = Ret client
       /\ SkipTLS (Cfg client) = false.
Proof.
  split; [conforming |].
  split; [exists []; vm_compute; reflexivity |].
  split; [vm_compute; reflexivity |].
  split; [vm_compute; reflexivity |].
  eexists. split; [vm_compute; reflexivity | reflexivity].
Qed.

(** C2: for every valid endpoint of scheme [https] with [skip_tls] unset,
    resolution hands [SkipTLS = false] to the client; the only way for it to
    build no client is an error on the authentication settings. *)
Theorem https_endpoint_default_verifies_tls d :
  provider_data d ->
  valid_endpoint (str d "url") ->
  endpoint_scheme (str d "url") = Some "https" ->
  unset d "skip_tls" ->
  (exists client, providerConfigure d = Ret client
     /\ SkipTLS (Cfg client) = false)
  \/ (exists e, providerConfigure d = Err e
        /\ (kind_of e = Some MissingCredential
            \/ kind_of e = Some AmbiguousAuth)).
Proof.
  intros Hd _ _ Hu.
  destruct (providerConfigure_outcomes d Hd) as [Hr | He]; [left | right; exact He].
  exists (NewClient (resolved d)). split; [exact Hr |].
  exact (unset_skip_tls_verifies d _ Hd Hu Hr).
Qed.

Lemma https_endpoint_default_verifies_tls_witness :
  exists client, providerConfigure https_without_auth = Ret client
    /\ SkipTLS (Cfg client) = false.
Proof.
  destruct (https_endpoint_default_verifies_tls https_without_auth)
    as [H | (e & He & _)].
  - conforming.
  - exists []. vm_compute. reflexivity.
  - vm_compute. reflexivity.
  - vm_compute. reflexivity.
  - exact H.
  - vm_compute in He. discriminate He.
Defined.

(** C3, as the code has it: with the endpoint [http://10.0.0.1] and
    [skip_tls = false] written out, resolution raises no error and builds a
    client with [SkipTLS = false]: [GetOk] reports a flag set to [false] as
    not set, so the branch that raises the TLS error is never taken. *)
Theorem override_false_on_http_builds_client :
  provider_data http_with_override_false
  /\ config http_with_override_false !! "skip_tls" = Some (VBool false)
  /\ Strings.HasPrefix (str http_with_override_false "url") "https://" = false
  /\ endpoint_scheme (str http_with_override_false "url") = Some "http"
  /\ exists client, providerConfigure http_with_override_false = Ret client
       /\ SkipTLS (Cfg client) = false.
Proof.
  split; [conforming |].
  split; [vm_compute; reflexivity |].
  split; [vm_compute; reflexivity |].
  split; [vm_compute; reflexivity |].
  eexists. split; [vm_compute; reflexivity | reflexivity].
Qed.

(** ** Authentication settings *)

Ltac settle_presence :=
  repeat match goal with
    | H : supplied _ _ _ |- _ =>
        let Hp := fresh "Hp" in let Hs := fresh "Hs" in
        apply supplied_present in H as [Hp Hs]
    | H : unset _ _ |- _ =>
        let Hp := fresh "Hp" in let Hs := fresh "Hs" in
        apply unset_present in H as [Hp Hs]
    end.

(** C4: a configuration that supplies exactly one complete authentication
    group (only [jwt_token]; only [user] with [password]; only
    [api_client_id] with [api_client_token]) resolves to a client whose
    configuration enables that mode alone, with the credentials supplied. *)
Theorem single_auth_group_resolves d :
  provider_data d ->
  (forall token,
     supplied d "jwt_token" token ->
     unset d "user" -> unset d "password" ->
     unset d "api_client_id" -> unset d "api_client_token" ->
     exists client, providerConfigure d = Ret client
       /\ JWTAuthEnabled (Cfg client) = true
       /\ JWTToken (Cfg client) = token
       /\ LocalAuthEnabled (Cfg client) = false
       /\ TokenAuthEnabled (Cfg client) = false)
  /\ (forall user password,
        supplied d "user" user -> supplied d "password" password ->
        unset d "jwt_token" ->
        unset d "api_client_id" -> unset d "api_client_token" ->
        exists client, providerConfigure d = Ret client
          /\ LocalAuthEnabled (Cfg client) = true
          /\ User (Cfg client) = user
          /\ Password (Cfg client) = password
          /\ JWTAuthEnabled (Cfg client) = false
          /\ TokenAuthEnabled (Cfg client) = false)
  /\ (forall id token,
        supplied d "api_client_id" id -> supplied d "api_client_token" token ->
        unset d "jwt_token" -> unset d "user" -> unset d "password" ->
        exists client, providerConfigure d = Ret client
          /\ TokenAuthEnabled (Cfg client) = true
          /\ ApiClientID (Cfg client) = id
          /\ ApiClientToken (Cfg client) = token
          /\ JWTAuthEnabled (Cfg client) = false
          /\ LocalAuthEnabled (Cfg client) = false).
Proof.
  intros Hd. repeat split; intros; settle_presence;
    (eexists; split;
     [ rewrite (providerConfigure_eq d Hd);
       repeat match goal with H : present _ _ = _ |- _ => rewrite H; clear H end;
       reflexivity
     | simpl;
       repeat match goal with H : present _ _ = _ |- _ => rewrite H; clear H end;
       repeat split; assumption ]).
Qed.

Lemma single_auth_group_resolves_witness :
  (exists client, providerConfigure jwt_only = Ret client
     /\ JWTAuthEnabled (Cfg client) = true /\ JWTToken (Cfg client) = "y"
     /\ LocalAuthEnabled (Cfg client) = false
     /\ TokenAuthEnabled (Cfg client) = false)
  /\ (exists client, providerConfigure local_only = Ret client
        /\ LocalAuthEnabled (Cfg client) = true /\ User (Cfg client) = "admin"
        /\ Password (Cfg client) = "x"
        /\ JWTAuthEnabled (Cfg client) = false
        /\ TokenAuthEnabled (Cfg client) = false)
  /\ (exists client, providerConfigure token_only = Ret client
        /\ TokenAuthEnabled (Cfg client) = true /\ ApiClientID (Cfg client) = "id"
        /\ ApiClientToken (Cfg client) = "secret"
        /\ JWTAuthEnabled (Cfg client) = false
        /\ LocalAuthEnabled (Cfg client) = false).
Proof.
  split; [| split].
  - apply (single_auth_group_resolves jwt_only); try conforming;
      try (split; [vm_compute; reflexivity | discriminate]);
      vm_compute; reflexivity.
  - apply (single_auth_group_resolves local_only); try conforming;
      try (split; [vm_compute; reflexivity | discriminate]);
      vm_compute; reflexivity.
  - apply (single_auth_group_resolves token_only); try conforming;
      try (split; [vm_compute; reflexivity | discriminate]);
      vm_compute; reflexivity.
Defined.

(** C5: [user] without [password], or [api_client_id] without
    [api_client_token], makes resolution fail with [MissingCredential],
    whatever the other settings (a [jwt_token], say) are. *)
Theorem incomplete_auth_group_fails d :
  provider_data d ->
  (exists user, supplied d "user" user /\ unset d "password")
  \/ (exists id, supplied d "api_client_id" id /\ unset d "api_client_token") ->
  exists e, providerConfigure d = Err e
    /\ kind_of e = Some MissingCredential.
Proof.
  intros Hd Hmiss. rewrite (providerConfigure_eq d Hd).
  destruct Hmiss as [(user & Hu & Hp) | (id & Hi & Ht)]; settle_presence.
  - rewrite Hp0, Hp1. simpl. eexists. split; reflexivity.
  - rewrite Hp, Hp0. simpl.
    destruct (present d "user" && negb (present d "password"));
      eexists; split; reflexivity.
Qed.

Lemma incomplete_auth_group_fails_witness :
  exists e, providerConfigure user_without_password = Err e
    /\ kind_of e = Some MissingCredential.
Proof.
  apply (incomplete_auth_group_fails user_without_password).
  - conforming.
  - left. exists "admin". split.
    + split; [vm_compute; reflexivity | discriminate].
    + vm_compute. reflexivity.
Defined.

(** Against C6 as stated: a configuration with two complete groups
    ([jwt_token]; [user] with [password]) and an [api_client_id] without its
    token fails, but with [MissingCredential]: the companion checks come
    before the count. *)
Lemma two_complete_groups_fail_with_missing_credential :
  provider_data local_and_jwt_and_client_id
  /\ (2 <= complete_groups local_and_jwt_and_client_id)%nat
  /\ providerConfigure local_and_jwt_and_client_id
     = Err (errors_New
              "api_client_token is required when api_client_id is provided")
  /\ ~ (exists e, providerConfigure local_and_jwt_and_client_id = Err e
          /\ kind_of e = Some AmbiguousAuth).
Proof.
  split; [conforming |].
  split; [vm_compute; lia |].
  split; [vm_compute; reflexivity |].
  intros (e & He & Hk). vm_compute in He.
  injection He as <-. vm_compute in Hk. discriminate Hk.
Qed.

(** C6, amended: a configuration with two or more complete authentication
    groups in which no group is left incomplete ([user] comes with
    [password], [api_client_id] with [api_client_token]) fails with
    [AmbiguousAuth]. *)
Theorem several_auth_groups_fail d :
  provider_data d ->
  (2 <= complete_groups d)%nat ->
  (present d "user" = true -> present d "password" = true) ->
  (present d "api_client_id" = true -> present d "api_client_token" = true) ->
  exists e, providerConfigure d = Err e /\ kind_of e = Some AmbiguousAuth.
Proof.
  intros Hd Hn Hlocal Htoken. rewrite (providerConfigure_eq d Hd).
  unfold complete_groups, jwt_complete, local_complete, token_complete in Hn.
  destruct (present d "jwt_token"), (present d "user"), (present d "password"),
    (present d "api_client_id"), (present d "api_client_token");
    simpl in *;
    try lia;
    try (specialize (Hlocal eq_refl); discriminate);
    try (specialize (Htoken eq_refl); discriminate);
    eexists; split; reflexivity.
Qed.

Lemma several_auth_groups_fail_witness :
  exists e, providerConfigure local_and_jwt = Err e
    /\ kind_of e = Some AmbiguousAuth.
Proof.
  apply (several_auth_groups_fail local_and_jwt).
  - conforming.
  - vm_compute. lia.
  - intros _. vm_compute. reflexivity.
  - vm_compute. intros H. discriminate H.
Defined.

(** C7: with a valid endpoint and none of the five authentication settings,
    resolution succeeds and the client configuration has the three
    [...AuthEnabled] flags [false]. *)
Theorem no_auth_settings_resolve d :
  provider_data d ->
  valid_endpoint (str d "url") ->
  unset d "user" -> unset d "password" -> unset d "jwt_token" ->
  unset d "api_client_id" -> unset d "api_client_token" ->
  exists client, providerConfigure d = Ret client
    /\ JWTAuthEnabled (Cfg client) = false
    /\ LocalAuthEnabled (Cfg client) = false
    /\ TokenAuthEnabled (Cfg client) = false.
Proof.
  intros Hd _ Hu Hp Hj Hi Ht. settle_presence.
  exists (NewClient (resolved d)). split.
  - rewrite (providerConfigure_eq d Hd).
    repeat match goal with H : present _ _ = _ |- _ => rewrite H; clear H end.
    reflexivity.
  - simpl. repeat split; assumption.
Qed.

Lemma no_auth_settings_resolve_witness :
  exists client, providerConfigure https_without_auth = Ret client
    /\ JWTAuthEnabled (Cfg client) = false
    /\ LocalAuthEnabled (Cfg client) = false
    /\ TokenAuthEnabled (Cfg client) = false.
Proof.
  apply (no_auth_settings_resolve https_without_auth).
  - conforming.
  - exists []. vm_compute. reflexivity.
  - vm_compute. reflexivity.
  - vm_compute. reflexivity.
  - vm_compute. reflexivity.
  - vm_compute. reflexivity.
  - vm_compute. reflexivity.
Defined.

(** ** Request timeout *)

Lemma wrap64_range z : min_int <= wrap64 z <= max_int.
Proof.
  unfold wrap64, min_int, max_int.
  pose proof (Z.mod_pos_bound (z + 2 ^ 63) (2 ^ 64) ltac:(lia)). lia.
Qed.

Lemma wrap64_small z : min_int <= z <= max_int -> wrap64 z = z.
Proof.
  unfold wrap64, min_int, max_int. intros Hz.
  rewrite Z.mod_small by lia. lia.
Qed.

Lemma wrap64_fixed z : wrap64 z = z <-> min_int <= z <= max_int.
Proof.
  split; [| apply wrap64_small].
  intros H. rewrite <- H. apply wrap64_range.
Qed.

(** [time.Duration(n) * time.Second] is [n] seconds exactly when [n] seconds
    fit the 64-bit count of nanoseconds. *)
Lemma seconds_exact n :
  min_int <= n <= max_int ->
  Time.mul (Time.of_int n) Time.Second = n * Time.Second
  <-> -9223372036 <= n <= 9223372036.
Proof.
  intros Hn. unfold Time.mul, Time.of_int. rewrite (wrap64_small n Hn).
  rewrite wrap64_fixed. change Time.Second with 1000000000.
  unfold min_int, max_int. lia.
Qed.

(** Against C9 as stated: a [timeout] of ten billion seconds resolves to a
    negative duration, the product having wrapped around. *)
Lemma timeout_of_ten_billion_wraps :
  provider_data timeout_of_ten_billion
  /\ config timeout_of_ten_billion !! "timeout" = Some (VInt 10000000000)
  /\ exists client, providerConfigure timeout_of_ten_billion = Ret client
       /\ Timeout (Cfg client) = -8446744073709551616
       /\ Timeout (Cfg client) <> 10000000000 * Time.Second.
Proof.
  split; [conforming |].
  split; [vm_compute; reflexivity |].
  eexists. split; [vm_compute; reflexivity |].
  split; [reflexivity | vm_compute; discriminate].
Qed.

(** C9, amended: when resolution builds a client, its timeout is 5 seconds
    if [timeout] is unset, and if [timeout] is set to [n] it is exactly [n]
    seconds if and only if [n] lies between -9223372036 and 9223372036, the
    numbers of seconds a [time.Duration] can hold. *)
Theorem timeout_resolution d client :
  provider_data d ->
  providerConfigure d = Ret client ->
  (unset d "timeout" -> Timeout (Cfg client) = 5 * Time.Second)
  /\ (forall n, config d !! "timeout" = Some (VInt n) ->
        (Timeout (Cfg client) = n * Time.Second
         <-> -9223372036 <= n <= 9223372036)).
Proof.
  intros Hd Hr. rewrite (providerConfigure_Ret d client Hd Hr). simpl.
  pose proof (Get_timeout d Hd) as [_ Hrange].
  unfold timeout_setting in *. split.
  - intros Hu. rewrite Hu. reflexivity.
  - intros n Hn. rewrite Hn in *. apply seconds_exact, Hrange.
Qed.

Lemma timeout_resolution_witness :
  (exists client, providerConfigure https_without_auth = Ret client
     /\ Timeout (Cfg client) = 5 * Time.Second)
  /\ (exists client, providerConfigure timeout_of_30 = Ret client
        /\ Timeout (Cfg client) = 30 * Time.Second).
Proof.
  split.
  - exists (NewClient (resolved https_without_auth)).
    assert (Hr : providerConfigure https_without_auth
                 = Ret (NewClient (resolved https_without_auth)))
      by (vm_compute; reflexivity).
    split; [exact Hr |].
    destruct (timeout_resolution https_without_auth _ ltac:(conforming) Hr)
      as [Hdefault _].
    apply Hdefault. vm_compute. reflexivity.
  - exists (NewClient (resolved timeout_of_30)).
    assert (Hr : providerConfigure timeout_of_30
                 = Ret (NewClient (resolved timeout_of_30)))
      by (vm_compute; reflexivity).
    split; [exact Hr |].
    destruct (timeout_resolution timeout_of_30 _ ltac:(conforming) Hr)
      as [_ Hset].
    apply (Hset 30); [vm_compute; reflexivity | lia].
Defined.

(** ** Endpoint validation *)

(** [url.Parse] hands back a [nil] pointer with every error, and a URL
    otherwise. *)
Lemma Parse_cases rawURL :
  (exists u, Url.Parse rawURL = (Some u, None))
  \/ (exists err, Url.Parse rawURL = (None, Some err)).
Proof.
  unfold Url.Parse. destruct (Strings.Cut rawURL "#") as [[u frag] found].
  destruct (Url.parse u) as [err | url]; [right; eauto |].
  destruct (String.eqb frag ""); [left; eauto |].
  destruct (Url.setFragment url frag) as [err | url']; [right | left]; eauto.
Qed.

Lemma Parse_error_nil rawURL :
  snd (Url.Parse rawURL) <> None -> fst (Url.Parse rawURL) = None.
Proof.
  destruct (Parse_cases rawURL) as [[u ->] | [err ->]]; simpl; congruence.
Qed.

(** On a string that parses, the validator returns, with the first error
    for a scheme other than [http] and [https] and the second for a
    non-empty path, query or fragment. *)
Lemma isValidHTTPURL_parsed value key u :
  Url.Parse value = (Some u, None) ->
  isValidHTTPURL (VString value) key =
    Ret ([],
         (if negb (String.eqb (Url.Scheme u) "http")
             && negb (String.eqb (Url.Scheme u) "https")
          then [fmt_Errorf "%q must be a valid HTTP/HTTPS URL, got: %q"
                  [VString key; VString value]]
          else [])
         ++ (if negb (String.eqb (Url.Path u) "")
                || negb (String.eqb (Url.RawQuery u) "")
                || negb (String.eqb (Url.Fragment u) "")
             then [fmt_Errorf
                     "%q should not contain any path, query or fragment, got: %q"
                     [VString key; VString value]]
             else []))%list.
Proof.
  intros Hp. unfold isValidHTTPURL. simpl. rewrite Hp. simpl.
  destruct (negb (String.eqb (Url.Scheme u) "http")
            && negb (String.eqb (Url.Scheme u) "https"));
    destruct (negb (String.eqb (Url.Path u) "")
              || negb (String.eqb (Url.RawQuery u) "")
              || negb (String.eqb (Url.Fragment u) ""));
    reflexivity.
Qed.

(** On a string that does not parse, the first condition appends its error
    and the second dereferences the [nil] URL. *)
Lemma isValidHTTPURL_unparsed value key err :
  Url.Parse value = (None, Some err) ->
  isValidHTTPURL (VString value) key = Panic NilDereference.
Proof.
  intros Hp. unfold isValidHTTPURL. simpl. rewrite Hp. reflexivity.
Qed.

(** The endpoints the validator lets through. *)
Lemma valid_endpoint_iff endpoint :
  valid_endpoint endpoint <->
  exists u, Url.Parse endpoint = (Some u, None)
    /\ (Url.Scheme u = "http" \/ Url.Scheme u = "https")
    /\ Url.Path u = "" /\ Url.RawQuery u = "" /\ Url.Fragment u = "".
Proof.
  unfold valid_endpoint. split.
  - intros [warns Hv].
    destruct (Parse_cases endpoint) as [[u Hp] | [err Hp]].
    + rewrite (isValidHTTPURL_parsed _ _ u Hp) in Hv.
      exists u. split; [exact Hp |].
      destruct (String.eqb_spec (Url.Scheme u) "http") as [Hh | Hh];
        destruct (String.eqb_spec (Url.Scheme u) "https") as [Hs | Hs];
        destruct (String.eqb_spec (Url.Path u) "");
        destruct (String.eqb_spec (Url.RawQuery u) "");
        destruct (String.eqb_spec (Url.Fragment u) "");
        simpl in Hv; try discriminate Hv; auto.
    + rewrite (isValidHTTPURL_unparsed _ _ err Hp) in Hv. discriminate Hv.
  - intros (u & Hp & Hs & Hpath & Hq & Hf). exists [].
    rewrite (isValidHTTPURL_parsed _ _ u Hp), Hpath, Hq, Hf.
    destruct Hs as [-> | ->]; reflexivity.
Qed.

(** Unescaping never empties a string. *)
Lemma unescape_nonempty s mode t :
  Url.unescape s mode = inr t -> s <> "" -> t <> "".
Proof.
  destruct s as [| c rest]; [congruence |]. intros H _.
  destruct t as [| c' t']; [| discriminate]. exfalso. revert H.
  cbn [Url.unescape].
  repeat match goal with
         | |- context [match ?x with _ => _ end] => destruct x
         end; discriminate.
Qed.

(** A string with something after its first [#] is never let through: it
    fails to parse, or it parses with a non-empty fragment. *)
Lemma fragment_never_valid endpoint before frag found :
  Strings.Cut endpoint "#" = (before, frag, found) -> frag <> "" ->
  ~ valid_endpoint endpoint.
Proof.
  intros Hcut Hfrag Hvalid.
  apply valid_endpoint_iff in Hvalid as (u & Hp & _ & _ & _ & Hf).
  unfold Url.Parse in Hp. rewrite Hcut in Hp.
  destruct (Url.parse before) as [err | url]; [discriminate Hp |].
  destruct (String.eqb_spec frag "") as [-> | _]; [contradiction |].
  unfold Url.setFragment in Hp.
  destruct (Url.unescape frag Url.encodeFragment) as [err | t] eqn:Hun;
    [discriminate Hp |].
  injection Hp as <-. simpl in Hf.
  exact (unescape_nonempty _ _ _ Hun Hfrag Hf).
Qed.

(** A rootless path after the scheme is kept in [Opaque], not in [Path]:
    such a string passes the validator. *)
Lemma opaque_endpoint_is_valid : valid_endpoint "http:10.0.0.1/admin".
Proof. exists []. vm_compute. reflexivity. Qed.

(** C8, as the code has it: the string [://192.168.1.1] does not parse
    ([url.Parse] misses the scheme), yet the validator reports no error for
    it: it panics on the [nil] URL before it returns. *)
Theorem validator_panics_on_missing_scheme :
  Url.Parse "://192.168.1.1" = (None, Some Url.MissingProtocolScheme)
  /\ isValidHTTPURL (VString "://192.168.1.1") "url" = Panic NilDereference
  /\ ~ (exists warns errs,
          isValidHTTPURL (VString "://192.168.1.1") "url" = Ret (warns, errs)).
Proof.
  split; [vm_compute; reflexivity |].
  split; [vm_compute; reflexivity |].
  intros (warns & errs & H). vm_compute in H. discriminate H.
Qed.

(** C10, as the code has it: whenever [url.Parse] returns an error, the
    validator does not return; reading [url.Path] dereferences [nil]. *)
Theorem validator_panics_when_parse_fails value key :
  snd (Url.Parse value) <> None ->
  isValidHTTPURL (VString value) key = Panic NilDereference.
Proof.
  intros Herr.
  destruct (Parse_cases value) as [[u Hp] | [err Hp]].
  - rewrite Hp in Herr. simpl in Herr. congruence.
  - exact (isValidHTTPURL_unparsed value key err Hp).
Qed.

Lemma validator_panics_when_parse_fails_witness :
  isValidHTTPURL (VString "https://192.168.1.1:https") "url"
  = Panic NilDereference.
Proof.
  apply (validator_panics_when_parse_fails "https://192.168.1.1:https" "url").
  vm_compute. discriminate.
Defined.

(** * Further properties of [provider.go] *)

(** ** [isValidHTTPURL] *)

(** X1: the validator returns without an error exactly for the strings that
    [url.Parse] accepts with scheme [http] or [https] and with [Path],
    [RawQuery] and [Fragment] empty. *)
Theorem validator_accepts_exactly endpoint :
  (exists warns, isValidHTTPURL (VString endpoint) "url" = Ret (warns, []))
  <-> exists u, Url.Parse endpoint = (Some u, None)
        /\ (Url.Scheme u = "http" \/ Url.Scheme u = "https")
        /\ Url.Path u = "" /\ Url.RawQuery u = "" /\ Url.Fragment u = "".
Proof. exact (valid_endpoint_iff endpoint). Qed.

(** X2: whatever the validator returns has no warning and at most two
    errors, each of kind [InvalidEndpoint] and each carrying the attribute
    name and the offending string. *)
Theorem validator_result_shape val key warns errs :
  isValidHTTPURL val key = Ret (warns, errs) ->
  warns = []
  /\ (length errs <= 2)%nat
  /\ exists value, val = VString value
       /\ Forall (fun e => kind_of e = Some InvalidEndpoint
                           /\ exists format,
                                e = fmt_Errorf format [VString key; VString value])
            errs.
Proof.
  intros Hr. destruct val as [| b | n | value]; try discriminate Hr.
  destruct (Parse_cases value) as [[u Hp] | [err Hp]].
  - rewrite (isValidHTTPURL_parsed value key u Hp) in Hr.
    injection Hr as <- <-. split; [reflexivity |].
    destruct (negb (String.eqb (Url.Scheme u) "http")
              && negb (String.eqb (Url.Scheme u) "https"));
      destruct (negb (String.eqb (Url.Path u) "")
                || negb (String.eqb (Url.RawQuery u) "")
                || negb (String.eqb (Url.Fragment u) ""));
      (split; [simpl; lia |]); exists value; (split; [reflexivity |]);
      repeat constructor; eauto.
  - rewrite (isValidHTTPURL_unparsed value key err Hp) in Hr. discriminate Hr.
Qed.

Lemma validator_result_shape_witness :
  exists errs,
    isValidHTTPURL (VString "ftp://192.168.1.1/api?x=1") "url" = Ret ([], errs)
    /\ (length errs <= 2)%nat.
Proof.
  exists [not_http_url "url" "ftp://192.168.1.1/api?x=1";
          has_path_query_fragment "url" "ftp://192.168.1.1/api?x=1"].
  assert (Hr : isValidHTTPURL (VString "ftp://192.168.1.1/api?x=1") "url"
               = Ret ([], [not_http_url "url" "ftp://192.168.1.1/api?x=1";
                           has_path_query_fragment "url"
                             "ftp://192.168.1.1/api?x=1"]))
    by (vm_compute; reflexivity).
  split; [exact Hr |].
  exact (proj1 (proj2 (validator_result_shape _ _ _ _ Hr))).
Defined.

(** X3: on a string the validator never takes the error return, and it
    returns normally exactly when [url.Parse] reports no error; on anything
    but a string the type assertion panics. *)
Theorem validator_returns_iff_parsed value key :
  (forall e, isValidHTTPURL (VString value) key <> Err e)
  /\ ((exists warns errs, isValidHTTPURL (VString value) key = Ret (warns, errs))
      <-> snd (Url.Parse value) = None)
  /\ (forall b, isValidHTTPURL (VBool b) key = Panic InterfaceConversion)
  /\ (forall n, isValidHTTPURL (VInt n) key = Panic InterfaceConversion)
  /\ isValidHTTPURL Nil key = Panic InterfaceConversion.
Proof.
  split; [| split; [| repeat split]].
  - intros e He. destruct (Parse_cases value) as [[u Hp] | [err Hp]].
    + rewrite (isValidHTTPURL_parsed value key u Hp) in He. discriminate He.
    + rewrite (isValidHTTPURL_unparsed value key err Hp) in He. discriminate He.
  - destruct (Parse_cases value) as [[u Hp] | [err Hp]].
    + rewrite (isValidHTTPURL_parsed value key u Hp), Hp. simpl.
      split; [reflexivity | eauto].
    + rewrite (isValidHTTPURL_unparsed value key err Hp), Hp. simpl.
      split; [intros (warns & errs & H); discriminate H | discriminate].
Qed.

(** X4: on a string that parses, the two checks are independent and their
    errors come in the order of the source: the scheme error is reported
    exactly when the scheme is neither [http] nor [https], the other exactly
    when [Path], [RawQuery] or [Fragment] is non-empty, and with both the
    scheme error is first. *)
Theorem validator_checks_independent value key u :
  Url.Parse value = (Some u, None) ->
  exists errs, isValidHTTPURL (VString value) key = Ret ([], errs)
    /\ (In (not_http_url key value) errs
        <-> Url.Scheme u <> "http" /\ Url.Scheme u <> "https")
    /\ (In (has_path_query_fragment key value) errs
        <-> Url.Path u <> "" \/ Url.RawQuery u <> "" \/ Url.Fragment u <> "")
    /\ (In (not_http_url key value) errs ->
        In (has_path_query_fragment key value) errs ->
        errs = [not_http_url key value; has_path_query_fragment key value]).
Proof.
  intros Hp. eexists. split; [exact (isValidHTTPURL_parsed value key u Hp) |].
  unfold not_http_url, has_path_query_fragment.
  destruct (String.eqb_spec (Url.Scheme u) "http");
    destruct (String.eqb_spec (Url.Scheme u) "https");
    destruct (String.eqb_spec (Url.Path u) "");
    destruct (String.eqb_spec (Url.RawQuery u) "");
    destruct (String.eqb_spec (Url.Fragment u) "");
    simpl; intuition (try discriminate; try congruence).
Qed.

Lemma validator_checks_independent_witness :
  isValidHTTPURL (VString "ftp://192.168.1.1/api?x=1") "url"
  = Ret ([], [not_http_url "url" "ftp://192.168.1.1/api?x=1";
              has_path_query_fragment "url" "ftp://192.168.1.1/api?x=1"]).
Proof.
  destruct (validator_checks_independent "ftp://192.168.1.1/api?x=1" "url"
              {| Url.Scheme := "ftp"; Url.Opaque := ""; Url.User := None;
                 Url.Host := "192.168.1.1"; Url.Path := "/api";
                 Url.OmitHost := false; Url.ForceQuery := false;
                 Url.RawQuery := "x=1"; Url.Fragment := "" |})
    as (errs & Hr & Hscheme & Hrest & Hboth).
  - vm_compute. reflexivity.
  - rewrite Hr. f_equal. f_equal. apply Hboth.
    + apply Hscheme. split; discriminate.
    + apply Hrest. left. discriminate.
Defined.

(** X5: a string with anything after its first [#] never passes the
    validator: either [url.Parse] rejects it or the fragment it leaves is
    non-empty. *)
Theorem validator_rejects_fragment endpoint before frag found :
  Strings.Cut endpoint "#" = (before, frag, found) -> frag <> "" ->
  forall warns, isValidHTTPURL (VString endpoint) "url" <> Ret (warns, []).
Proof.
  intros Hcut Hfrag warns Hr.
  apply (fragment_never_valid endpoint before frag found Hcut Hfrag).
  exists warns. exact Hr.
Qed.

Lemma validator_rejects_fragment_witness :
  exists errs,
    isValidHTTPURL (VString "https://192.168.1.1#top") "url" = Ret ([], errs)
    /\ errs <> [].
Proof.
  exists [has_path_query_fragment "url" "https://192.168.1.1#top"].
  assert (Hr : isValidHTTPURL (VString "https://192.168.1.1#top") "url"
               = Ret ([], [has_path_query_fragment "url"
                             "https://192.168.1.1#top"]))
    by (vm_compute; reflexivity).
  split; [exact Hr |]. intros Hnil. rewrite Hnil in Hr.
  apply (validator_rejects_fragment "https://192.168.1.1#top"
           "https://192.168.1.1" "top" true) with (warns := []).
  - vm_compute. reflexivity.
  - discriminate.
  - exact Hr.
Defined.

(** ** [providerConfigure] *)

Lemma provider_data_remove d key :
  provider_data d -> provider_data (remove_setting d key).
Proof.
  intros [Hs Hc]. split; [exact Hs |].
  unfold conforms, remove_setting. simpl. apply map_Forall_delete, Hc.
Qed.

Lemma provider_data_set d key v sch :
  provider_data d -> schema d !! key = Some sch ->
  has_type (Type_ sch) v = true ->
  provider_data (set_setting d key v).
Proof.
  intros [Hs Hc] Hk Hty. split; [exact Hs |].
  unfold conforms, set_setting. simpl. apply map_Forall_insert_2; [| exact Hc].
  rewrite Hk. exact Hty.
Qed.

(** [providerConfigure] sees a configuration through the strings of its
    settings, its [skip_tls] flag and its [timeout] only. *)
Lemma providerConfigure_ext d d' :
  provider_data d -> provider_data d' ->
  (forall key, str d' key = str d key) ->
  skip_flag d' = skip_flag d ->
  timeout_setting d' = timeout_setting d ->
  providerConfigure d' = providerConfigure d.
Proof.
  intros Hd Hd' Hstr Hskip Htime.
  rewrite (providerConfigure_eq d Hd), (providerConfigure_eq d' Hd').
  unfold resolved, present. rewrite Hskip, Htime, !Hstr. reflexivity.
Qed.

Lemma skip_flag_true d :
  skip_flag d = true <-> config d !! "skip_tls" = Some (VBool true).
Proof.
  unfold skip_flag. destruct (config d !! "skip_tls") as [[| [] | |] |];
    split; congruence.
Qed.

(** X6: on a provider configuration [providerConfigure] never panics, and
    the only errors it returns are the three on the authentication
    settings; the error [Cannot enforce TLS] of the source is never
    returned. *)
Theorem providerConfigure_failures d :
  provider_data d ->
  (forall p, providerConfigure d <> Panic p)
  /\ (forall e, providerConfigure d = Err e ->
        e = password_required \/ e = api_client_token_required
        \/ e = only_one_auth)
  /\ (forall e url, providerConfigure d = Err e ->
        e <> fmt_Errorf "Cannot enforce TLS for url %s" [VString url]).
Proof.
  intros Hd. rewrite (providerConfigure_eq d Hd).
  destruct (present d "user" && negb (present d "password"));
    [| destruct (present d "api_client_id"
                 && negb (present d "api_client_token"));
       [| destruct (1 <? _)]];
    (split; [intros p H; discriminate H |]);
    (split; [intros e H; try discriminate H; injection H as <-; auto
            | intros e url H; try discriminate H; injection H as <-;
              discriminate]).
Qed.

Lemma providerConfigure_failures_witness :
  exists e, providerConfigure both_pairs_incomplete = Err e
    /\ (e = password_required \/ e = api_client_token_required
        \/ e = only_one_auth).
Proof.
  exists password_required.
  assert (Hr : providerConfigure both_pairs_incomplete = Err password_required)
    by (vm_compute; reflexivity).
  split; [exact Hr |].
  destruct (providerConfigure_failures both_pairs_incomplete
              ltac:(conforming)) as (_ & Herr & _).
  exact (Herr _ Hr).
Defined.

Lemma providerConfigure_Ret_iff d :
  provider_data d ->
  (exists client, providerConfigure d = Ret client)
  <-> (present d "user" = true -> present d "password" = true)
      /\ (present d "api_client_id" = true ->
          present d "api_client_token" = true)
      /\ (Nat.b2n (present d "jwt_token") + Nat.b2n (present d "user")
          + Nat.b2n (present d "api_client_id") <= 1)%nat.
Proof.
  intros Hd. rewrite (providerConfigure_eq d Hd).
  destruct (present d "jwt_token"), (present d "user"), (present d "password"),
    (present d "api_client_id"), (present d "api_client_token"); simpl;
    (split;
     [ intros [client H]; try discriminate H;
       repeat split; intros; try reflexivity; try discriminate; lia
     | intros (Hlocal & Htoken & Hcount);
       try (specialize (Hlocal eq_refl); discriminate Hlocal);
       try (specialize (Htoken eq_refl); discriminate Htoken);
       try lia; eexists; reflexivity ]).
Qed.

(** X7: [providerConfigure] builds a client exactly when [user] does not
    come without [password], [api_client_id] does not come without
    [api_client_token], and at most one of [jwt_token], [user] and
    [api_client_id] is supplied; the endpoint, [skip_tls] and [timeout] are
    never a reason to refuse. *)
Theorem client_built_iff d :
  provider_data d ->
  (exists client, providerConfigure d = Ret client)
  <-> (present d "user" = true -> present d "password" = true)
      /\ (present d "api_client_id" = true ->
          present d "api_client_token" = true)
      /\ (Nat.b2n (present d "jwt_token") + Nat.b2n (present d "user")
          + Nat.b2n (present d "api_client_id") <= 1)%nat.
Proof. exact (providerConfigure_Ret_iff d). Qed.

Lemma client_built_iff_witness :
  exists client, providerConfigure endpoint_with_path = Ret client.
Proof.
  apply (client_built_iff endpoint_with_path).
  - conforming.
  - vm_compute. repeat split; try discriminate. lia.
Defined.

(** X8: the order of the checks.  [user] without [password] yields the
    password error whatever else is set; [api_client_id] without
    [api_client_token] yields the token error when the local pair is not at
    fault, also when the settings name two modes. *)
Theorem missing_credential_precedence d :
  provider_data d ->
  (present d "user" = true -> present d "password" = false ->
   providerConfigure d = Err password_required)
  /\ (present d "api_client_id" = true ->
      present d "api_client_token" = false ->
      (present d "user" = true -> present d "password" = true) ->
      providerConfigure d = Err api_client_token_required).
Proof.
  intros Hd. rewrite (providerConfigure_eq d Hd). split.
  - intros -> ->. reflexivity.
  - intros -> -> Hlocal.
    destruct (present d "user"); [rewrite (Hlocal eq_refl) |]; reflexivity.
Qed.

Lemma missing_credential_precedence_witness :
  providerConfigure both_pairs_incomplete = Err password_required
  /\ providerConfigure jwt_and_client_id_without_token
     = Err api_client_token_required.
Proof.
  split.
  - apply (missing_credential_precedence both_pairs_incomplete);
      [conforming | vm_compute; reflexivity | vm_compute; reflexivity].
  - apply (missing_credential_precedence jwt_and_client_id_without_token);
      [conforming | vm_compute; reflexivity | vm_compute; reflexivity |].
    vm_compute. discriminate.
Defined.

(** X9: a client that [providerConfigure] builds has at most one of the
    three authentication modes enabled. *)
Theorem built_client_has_one_mode d client :
  provider_data d -> providerConfigure d = Ret client ->
  (auth_modes (Cfg client) <= 1)%nat.
Proof.
  intros Hd Hr.
  pose proof (proj1 (providerConfigure_Ret_iff d Hd) (ex_intro _ client Hr))
    as (_ & _ & Hcount).
  rewrite (providerConfigure_Ret d client Hd Hr). exact Hcount.
Qed.

Lemma built_client_has_one_mode_witness :
  exists client, providerConfigure local_only = Ret client
    /\ (auth_modes (Cfg client) <= 1)%nat.
Proof.
  exists (NewClient (resolved local_only)).
  assert (Hr : providerConfigure local_only
               = Ret (NewClient (resolved local_only)))
    by (vm_compute; reflexivity).
  split; [exact Hr |].
  apply (built_client_has_one_mode local_only _ ltac:(conforming) Hr).
Defined.

(** X10: in a client that [providerConfigure] builds, a mode is enabled
    exactly when its credentials are there: [JWTAuthEnabled] goes with a
    non-empty [JWTToken], [LocalAuthEnabled] with a non-empty [User] and
    [Password], [TokenAuthEnabled] with a non-empty [ApiClientID] and
    [ApiClientToken]; the credentials of a mode that is off are empty. *)
Theorem built_client_credentials d client :
  provider_data d -> providerConfigure d = Ret client ->
  let c := Cfg client in
  (if JWTAuthEnabled c then JWTToken c <> "" else JWTToken c = "")
  /\ (if LocalAuthEnabled c then User c <> "" /\ Password c <> ""
      else User c = "" /\ Password c = "")
  /\ (if TokenAuthEnabled c then ApiClientID c <> "" /\ ApiClientToken c <> ""
      else ApiClientID c = "" /\ ApiClientToken c = "").
Proof.
  intros Hd Hr.
  pose proof (proj1 (providerConfigure_Ret_iff d Hd) (ex_intro _ client Hr))
    as (Hlocal & Htoken & _).
  rewrite (providerConfigure_Ret d client Hd Hr). simpl.
  assert (Hne : forall key, present d key = true -> str d key <> "").
  { intros key. unfold present.
    destruct (String.eqb_spec (str d key) ""); [discriminate | auto]. }
  pose proof (Hne "jwt_token") as Hj. pose proof (Hne "user") as Hu.
  pose proof (Hne "password") as Hp. pose proof (Hne "api_client_id") as Hi.
  pose proof (Hne "api_client_token") as Ht.
  destruct (present d "jwt_token"), (present d "user"),
    (present d "api_client_id"); repeat split; auto.
Qed.

Lemma built_client_credentials_witness :
  exists client, providerConfigure token_only = Ret client
    /\ ApiClientID (Cfg client) <> "" /\ ApiClientToken (Cfg client) <> ""
    /\ JWTToken (Cfg client) = "" /\ User (Cfg client) = ""
    /\ Password (Cfg client) = "".
Proof.
  exists (NewClient (resolved token_only)).
  assert (Hr : providerConfigure token_only
               = Ret (NewClient (resolved token_only)))
    by (vm_compute; reflexivity).
  split; [exact Hr |].
  destruct (built_client_credentials token_only _ ltac:(conforming) Hr)
    as (Hj & Hl & Ht).
  vm_compute in Hj, Hl, Ht. destruct Hl as [Hu Hp], Ht as [Hi Hk].
  vm_compute. auto.
Defined.

(** X11: a client that [providerConfigure] builds skips TLS verification
    exactly when [skip_tls] is set to [true]; the endpoint has no say in
    it. *)
Theorem skip_tls_only_when_set d client :
  provider_data d -> providerConfigure d = Ret client ->
  (SkipTLS (Cfg client) = true <-> config d !! "skip_tls" = Some (VBool true)).
Proof.
  intros Hd Hr. rewrite (providerConfigure_Ret d client Hd Hr). simpl.
  apply skip_flag_true.
Qed.

Lemma skip_tls_only_when_set_witness :
  exists client, providerConfigure skip_tls_on_https = Ret client
    /\ SkipTLS (Cfg client) = true.
Proof.
  exists (NewClient (resolved skip_tls_on_https)).
  assert (Hr : providerConfigure skip_tls_on_https
               = Ret (NewClient (resolved skip_tls_on_https)))
    by (vm_compute; reflexivity).
  split; [exact Hr |].
  apply (skip_tls_only_when_set skip_tls_on_https _ ltac:(conforming) Hr).
  vm_compute. reflexivity.
Defined.

(** X12: a companion credential without its leading setting is ignored:
    when [user] is not supplied, [providerConfigure] returns the same with
    [password] taken out of the block, and when [api_client_id] is not
    supplied, the same with [api_client_token] taken out. *)
Theorem stray_companion_ignored d :
  provider_data d ->
  (present d "user" = false ->
   providerConfigure (remove_setting d "password") = providerConfigure d)
  /\ (present d "api_client_id" = false ->
      providerConfigure (remove_setting d "api_client_token")
      = providerConfigure d).
Proof.
  intros Hd.
  assert (Hother : forall key k, k <> key ->
            str (remove_setting d key) k = str d k).
  { intros key k Hne. unfold str, remove_setting. simpl.
    rewrite lookup_delete_ne by congruence. reflexivity. }
  assert (Hskip : forall key, key <> "skip_tls" ->
            skip_flag (remove_setting d key) = skip_flag d).
  { intros key Hne. unfold skip_flag, remove_setting. simpl.
    rewrite lookup_delete_ne by exact Hne. reflexivity. }
  assert (Htime : forall key, key <> "timeout" ->
            timeout_setting (remove_setting d key) = timeout_setting d).
  { intros key Hne. unfold timeout_setting, remove_setting. simpl.
    rewrite lookup_delete_ne by exact Hne. reflexivity. }
  split; intros Hoff.
  - rewrite (providerConfigure_eq d Hd),
      (providerConfigure_eq _ (provider_data_remove d "password" Hd)).
    unfold resolved, present in *.
    rewrite Hskip, Htime by discriminate.
    rewrite !(Hother "password" "url"), !(Hother "password" "user"),
      !(Hother "password" "jwt_token"), !(Hother "password" "api_client_id"),
      !(Hother "password" "api_client_token") by discriminate.
    rewrite Hoff. reflexivity.
  - rewrite (providerConfigure_eq d Hd),
      (providerConfigure_eq _ (provider_data_remove d "api_client_token" Hd)).
    unfold resolved, present in *.
    rewrite Hskip, Htime by discriminate.
    rewrite !(Hother "api_client_token" "url"),
      !(Hother "api_client_token" "user"),
      !(Hother "api_client_token" "jwt_token"),
      !(Hother "api_client_token" "api_client_id"),
      !(Hother "api_client_token" "password") by discriminate.
    rewrite Hoff. reflexivity.
Qed.

Lemma stray_companion_ignored_witness :
  providerConfigure (remove_setting jwt_with_stray_password "password")
  = providerConfigure jwt_with_stray_password.
Proof.
  apply (stray_companion_ignored jwt_with_stray_password).
  - conforming.
  - vm_compute. reflexivity.
Defined.

(** X13: a setting written with the zero value of its type reads as not
    written: with a string setting set to the empty string, or a boolean
    setting set to [false], [providerConfigure] returns the same as with
    the setting taken out of the block. *)
Theorem zero_value_reads_as_unset d key :
  provider_data d ->
  config d !! key = Some (VString "") \/ config d !! key = Some (VBool false) ->
  providerConfigure (remove_setting d key) = providerConfigure d.
Proof.
  intros Hd Hzero.
  apply providerConfigure_ext;
    [exact Hd | exact (provider_data_remove d key Hd) | | |].
  - intros k. unfold str, remove_setting. simpl.
    destruct (decide (k = key)) as [-> | Hne].
    + rewrite lookup_delete_eq. destruct Hzero as [-> | ->]; reflexivity.
    + rewrite lookup_delete_ne by congruence. reflexivity.
  - unfold skip_flag, remove_setting. simpl.
    destruct (decide ("skip_tls" = key)) as [<- | Hne].
    + rewrite lookup_delete_eq. destruct Hzero as [-> | ->]; reflexivity.
    + rewrite lookup_delete_ne by congruence. reflexivity.
  - unfold timeout_setting, remove_setting. simpl.
    destruct (decide ("timeout" = key)) as [<- | Hne].
    + rewrite lookup_delete_eq. destruct Hzero as [-> | ->]; reflexivity.
    + rewrite lookup_delete_ne by congruence. reflexivity.
Qed.

Lemma zero_value_reads_as_unset_witness :
  providerConfigure (remove_setting http_with_override_false "skip_tls")
  = providerConfigure http_with_override_false
  /\ providerConfigure (remove_setting jwt_with_empty_user "user")
     = providerConfigure jwt_with_empty_user.
Proof.
  split.
  - apply (zero_value_reads_as_unset http_with_override_false "skip_tls").
    + conforming.
    + right. vm_compute. reflexivity.
  - apply (zero_value_reads_as_unset jwt_with_empty_user "user").
    + conforming.
    + left. vm_compute. reflexivity.
Defined.

(** X14: [providerConfigure] hands the [url] setting to the client as it
    is written and does not validate it: changing the endpoint changes the
    [Host] of the client that is built and nothing else of the outcome. *)
Theorem endpoint_only_sets_host d endpoint :
  provider_data d ->
  providerConfigure (set_setting d "url" (VString endpoint))
  = match providerConfigure d with
    | Ret client =>
        let c := Cfg client in
        Ret (NewClient
               {| Host := endpoint; LocalAuthEnabled := LocalAuthEnabled c;
                  User := User c; Password := Password c;
                  JWTAuthEnabled := JWTAuthEnabled c; JWTToken := JWTToken c;
                  TokenAuthEnabled := TokenAuthEnabled c;
                  ApiClientID := ApiClientID c;
                  ApiClientToken := ApiClientToken c;
                  SkipTLS := SkipTLS c; Timeout := Timeout c |})
    | other => other
    end.
Proof.
  intros Hd.
  assert (Hd' : provider_data (set_setting d "url" (VString endpoint))).
  { destruct Hd as [Hs Hc].
    apply (provider_data_set d "url" (VString endpoint)
             {| Type_ := TypeString; Optional := false; Required := true;
                Default := None;
                Description :=
                  "The url of the target pfsense e.g https://192.168.1.1";
                Sensitive := false; ValidateFunc := Some isValidHTTPURL |});
      [split; assumption | rewrite Hs; reflexivity | reflexivity]. }
  rewrite (providerConfigure_eq d Hd), (providerConfigure_eq _ Hd').
  assert (Hother : forall k, k <> "url" ->
            str (set_setting d "url" (VString endpoint)) k = str d k).
  { intros k Hne. unfold str, set_setting. simpl.
    rewrite lookup_insert_ne by congruence. reflexivity. }
  assert (Hurl : str (set_setting d "url" (VString endpoint)) "url" = endpoint).
  { unfold str, set_setting. simpl. rewrite lookup_insert_eq. reflexivity. }
  unfold resolved, present, skip_flag, timeout_setting.
  rewrite Hurl, !(Hother "user"), !(Hother "password"), !(Hother "jwt_token"),
    !(Hother "api_client_id"), !(Hother "api_client_token") by discriminate.
  unfold set_setting. simpl.
  rewrite !lookup_insert_ne by discriminate.
  destruct (_ && negb _); [reflexivity |].
  destruct (_ && negb _); [reflexivity |].
  destruct (1 <? _); reflexivity.
Qed.

Lemma endpoint_only_sets_host_witness :
  exists client,
    providerConfigure
      (set_setting jwt_only "url" (VString "ftp://192.168.1.1/api?x=1"))
    = Ret client
    /\ Host (Cfg client) = "ftp://192.168.1.1/api?x=1"
    /\ JWTToken (Cfg client) = "y".
Proof.
  eexists. split.
  - rewrite (endpoint_only_sets_host jwt_only "ftp://192.168.1.1/api?x=1"
               ltac:(conforming)).
    vm_compute. reflexivity.
  - split; reflexivity.
Defined.
